(** * Book REST API (part-4/app.py): a shallow embedding and its properties

    The handlers of [app.py] are embedded as pure functions that take the
    table of books (and, where the code reads them, the query arguments or
    the parsed JSON body) and return the HTTP outcome together with the
    table after the request.

    Boundaries of the model, all of them outside [app.py]:
    - [request.get_json()] is Flask's: a handler starts from the value it
      returns ([PNone] for a body that is absent or the literal null);
    - the table is what SQLAlchemy and SQLite keep for the [Book] class: rows
      in ascending [id] order, a new row taking the largest id plus one, the
      declared constraints (NOT NULL on title and author, UNIQUE on isbn)
      checked when the session commits, and an exception that escapes a
      handler leaving the table as it was;
    - values are kept as the handler assigned them: SQLite's conversion of a
      value whose Python type is not the column's type, and its 64-bit range
      for integers, are not modelled, and JSON numbers are integers;
    - strings are byte strings, and case folding, white space and digits are
      the ASCII ones. *)

From Stdlib Require Import ZArith List String Ascii Bool Lia DecimalString.
From Stdlib Require Import Sorting.Sorted Sorting.Permutation.
Import ListNotations.
Set Warnings "-register-all".
Open Scope string_scope.
Open Scope Z_scope.

(** ** Python values *)

(** [datetime.datetime], as [datetime.utcnow()] returns it. *)
Record datetime := mkDatetime {
  dt_year : Z; dt_month : Z; dt_day : Z;
  dt_hour : Z; dt_minute : Z; dt_second : Z; dt_microsecond : Z
}.

Inductive pyval :=
| PNone
| PBool (b : bool)
| PInt (n : Z)
| PStr (s : string)
| PDatetime (d : datetime)
| PList (l : list pyval)
| PDict (kv : list (string * pyval)).

(** Exceptions that escape a handler; Flask answers them with a generic 500. *)
Inductive exn :=
| AttributeError
| TypeError
| KeyError
| ValueError
| IntegrityError
| InterfaceError.

(** What a request yields: [jsonify(body), status], or an uncaught exception. *)
Inductive outcome :=
| Response (status : Z) (body : pyval)
| Uncaught (e : exn).

Definition status_of (o : outcome) : Z :=
  match o with
  | Response st _ => st
  | Uncaught _ => 500
  end.

(** Python truth value, as [if not data] and [if data.get('isbn')] test it. *)
Definition truthy (v : pyval) : bool :=
  match v with
  | PNone => false
  | PBool b => b
  | PInt n => negb (n =? 0)
  | PStr s => negb (s =? "")%string
  | PDatetime _ => true
  | PList l => match l with [] => false | _ => true end
  | PDict kv => match kv with [] => false | _ => true end
  end.

(** Lookup in a dict (keys of a parsed JSON object are distinct). *)
Fixpoint assoc {A} (k : string) (kv : list (string * A)) : option A :=
  match kv with
  | [] => None
  | (k', v) :: rest => if (k =? k')%string then Some v else assoc k rest
  end.

(** [needle in haystack] on [str]: substring test. *)
Fixpoint substring_of (needle hay : string) : bool :=
  prefix needle hay ||
  match hay with
  | EmptyString => false
  | String _ rest => substring_of needle rest
  end.

Definition is_str (k : string) (v : pyval) : bool :=
  match v with
  | PStr s => (s =? k)%string
  | _ => false
  end.

(** [data.get(key)]: a dict method; any other type has no attribute [get]. *)
Definition py_get (data : pyval) (k : string) : exn + pyval :=
  match data with
  | PDict kv => inr (match assoc k kv with Some v => v | None => PNone end)
  | _ => inl AttributeError
  end.

(** [key in data], for a string key. *)
Definition py_in (k : string) (data : pyval) : exn + bool :=
  match data with
  | PDict kv => inr (match assoc k kv with Some _ => true | None => false end)
  | PList l => inr (existsb (is_str k) l)
  | PStr s => inr (substring_of k s)
  | _ => inl TypeError
  end.

(** [data[key]], for a string key; a list or a string refuses a string
    index, and so does a value that cannot be subscripted. *)
Definition py_getitem (data : pyval) (k : string) : exn + pyval :=
  match data with
  | PDict kv => match assoc k kv with Some v => inr v | None => inl KeyError end
  | _ => inl TypeError
  end.

(** ** Decimal and ISO formatting *)

Definition decimal (n : Z) : string := NilZero.string_of_int (Z.to_int n).

Fixpoint zeros (n : nat) : string :=
  match n with
  | O => ""
  | S m => String "0" (zeros m)
  end.

(** [%0wd] for a non-negative field. *)
Definition pad (w : nat) (n : Z) : string :=
  let s := decimal n in
  zeros (w - String.length s) ++ s.

(** [datetime.isoformat()]: the fraction is printed when it is not zero. *)
Definition isoformat (d : datetime) : string :=
  pad 4 (dt_year d) ++ "-" ++ pad 2 (dt_month d) ++ "-" ++ pad 2 (dt_day d)
  ++ "T" ++ pad 2 (dt_hour d) ++ ":" ++ pad 2 (dt_minute d) ++ ":"
  ++ pad 2 (dt_second d)
  ++ (if dt_microsecond d =? 0 then "" else "." ++ pad 6 (dt_microsecond d)).

(** ** Query arguments: [request.args] *)

Definition args := list (string * string).

(** White space that [int()] strips. *)
Definition is_space (c : ascii) : bool :=
  let n := N_of_ascii c in
  (((9 <=? n) && (n <=? 13)) || ((28 <=? n) && (n <=? 32)))%N.

Definition is_digit (c : ascii) : bool :=
  let n := N_of_ascii c in ((48 <=? n) && (n <=? 57))%N.

Definition digit_value (c : ascii) : Z := Z.of_N (N_of_ascii c) - 48.

Fixpoint lstrip (s : list ascii) : list ascii :=
  match s with
  | c :: r => if is_space c then lstrip r else s
  | [] => []
  end.

Definition strip (s : list ascii) : list ascii :=
  rev (lstrip (rev (lstrip s))).

(** Digits, a single underscore allowed between two of them. *)
Fixpoint digits (acc : Z) (after_digit : bool) (s : list ascii) : option Z :=
  match s with
  | [] => if after_digit then Some acc else None
  | c :: r =>
      if is_digit c then digits (10 * acc + digit_value c) true r
      else if (c =? "_")%char then
        if after_digit then digits acc false r else None
      else None
  end.

(** [int(s)] in base ten; [None] stands for [ValueError]. *)
Definition python_int (s : string) : option Z :=
  match strip (list_ascii_of_string s) with
  | c :: r =>
      if (c =? "-")%char then option_map Z.opp (digits 0 false r)
      else if (c =? "+")%char then digits 0 false r
      else digits 0 false (c :: r)
  | [] => None
  end.

(** [request.args.get(key, default, type=int)]: the default also when the
    conversion raises [ValueError]. *)
Definition args_get_int (a : args) (k : string) (default : Z) : Z :=
  match assoc k a with
  | Some s => match python_int s with Some n => n | None => default end
  | None => default
  end.

(** [request.args.get(key, default)] *)
Definition args_get (a : args) (k : string) (default : string) : string :=
  match assoc k a with
  | Some s => s
  | None => default
  end.

(** [str.lower()] *)
Definition lower_char (c : ascii) : ascii :=
  let n := N_of_ascii c in
  if ((65 <=? n) && (n <=? 90))%N then ascii_of_N (n + 32) else c.

Fixpoint lower (s : string) : string :=
  match s with
  | EmptyString => EmptyString
  | String c r => String (lower_char c) (lower r)
  end.

(** ** The model class and its table *)

Module Book.

(** A row of [class Book(db.Model)].  The four columns a request body
    reaches hold the value that was assigned; [created_at] is only ever
    filled by its default. *)
Record t := mk {
  id : Z;
  title : pyval;
  author : pyval;
  year : pyval;
  isbn : pyval;
  created_at : option datetime
}.

Definition to_dict (self : t) : pyval :=
  PDict [ ("id", PInt (id self));
          ("title", title self);
          ("author", author self);
          ("year", year self);
          ("isbn", isbn self);
          ("created_at", match created_at self with
                         | Some d => PStr (isoformat d)
                         | None => PNone
                         end) ].

(** The columns declared in the class body. *)
Inductive column := Id | Title | Author | Year | Isbn | CreatedAt.

(** What [getattr(Book, name)] finds. *)
Inductive attribute :=
| Column (c : column)   (* an instrumented attribute: has [asc] and [desc] *)
| Other                 (* [to_dict], or a name inherited from [db.Model] *)
| Missing.              (* [hasattr(Book, name)] is false *)

(** The value a row has in a column. *)
Definition value (c : column) (self : t) : pyval :=
  match c with
  | Id => PInt (id self)
  | Title => title self
  | Author => author self
  | Year => year self
  | Isbn => isbn self
  | CreatedAt => match created_at self with
                 | Some d => PDatetime d
                 | None => PNone
                 end
  end.

End Book.

(** The table, in ascending [id] order (the order of an unsorted query). *)
Definition table := list Book.t.

(** [Book.query.get(id)] *)
Definition query_get (db : table) (id : Z) : option Book.t :=
  find (fun b => Book.id b =? id) db.

(** The id SQLite gives the next inserted row. *)
Definition next_id (db : table) : Z :=
  fold_right (fun b m => Z.max (Book.id b) m) 0 db + 1.

(** ** SQL comparison of stored values *)

Definition bytes (s : string) : list Z :=
  map (fun c => Z.of_N (N_of_ascii c)) (list_ascii_of_string s).

(** Storage class first (NULL, then numbers, then text), then the value;
    a timestamp is only ever compared with another one or with NULL. *)
Definition sort_key (v : pyval) : list Z :=
  match v with
  | PNone => [0]
  | PBool b => [1; if b then 1 else 0]
  | PInt n => [1; n]
  | PStr s => 2 :: bytes s
  | PDatetime d => [3; dt_year d; dt_month d; dt_day d; dt_hour d;
                    dt_minute d; dt_second d; dt_microsecond d]
  | PList _ => [4]
  | PDict _ => [4]
  end.

Fixpoint lex_compare (k1 k2 : list Z) : comparison :=
  match k1, k2 with
  | [], [] => Eq
  | [], _ :: _ => Lt
  | _ :: _, [] => Gt
  | x :: r1, y :: r2 =>
      match x ?= y with
      | Eq => lex_compare r1 r2
      | c => c
      end
  end.

Definition sql_le (a b : pyval) : bool :=
  match lex_compare (sort_key a) (sort_key b) with
  | Gt => false
  | _ => true
  end.

Definition is_null (v : pyval) : bool :=
  match v with
  | PNone => true
  | _ => false
  end.

(** [column = value] in a WHERE clause or a UNIQUE index: never true of NULL. *)
Definition sql_eq (a b : pyval) : bool :=
  negb (is_null a) && negb (is_null b) &&
  match lex_compare (sort_key a) (sort_key b) with
  | Eq => true
  | _ => false
  end.

(** [ORDER BY]: rows with equal keys keep the order of the table. *)
Fixpoint insert_by (le : Book.t -> Book.t -> bool) (x : Book.t)
    (l : list Book.t) : list Book.t :=
  match l with
  | [] => [x]
  | y :: r => if le x y then x :: l else y :: insert_by le x r
  end.

Definition sort_by (le : Book.t -> Book.t -> bool) (l : list Book.t)
    : list Book.t :=
  fold_right (insert_by le) [] l.

Definition asc (c : Book.column) (x y : Book.t) : bool :=
  sql_le (Book.value c x) (Book.value c y).

Definition desc (c : Book.column) (x y : Book.t) : bool :=
  sql_le (Book.value c y) (Book.value c x).

(** [LIKE]: [%] stands for any run of characters, [_] for one character, and
    letters match without regard to case. *)
Fixpoint like (p s : list ascii) : bool :=
  match p with
  | [] => match s with [] => true | _ => false end
  | c :: p' =>
      if (c =? "%")%char then
        (fix star (s : list ascii) : bool :=
           like p' s || match s with [] => false | _ :: s' => star s' end) s
      else
        match s with
        | [] => false
        | d :: s' =>
            ((c =? "_")%char || (lower_char c =? lower_char d)%char)
            && like p' s'
        end
  end.

(** [column.ilike('%' + needle + '%')] *)
Definition ilike (v : pyval) (needle : string) : bool :=
  match v with
  | PStr s => like (list_ascii_of_string ("%" ++ needle ++ "%"))
                   (list_ascii_of_string s)
  | _ => false
  end.

(** ** [query.paginate(page=, per_page=, error_out=False)] *)

Module Pagination.

Record t := mk {
  items : list Book.t;
  total : Z;
  pages : Z;
  page : Z
}.

End Pagination.

(** A page below 1 becomes 1 and a page size below 1 becomes 20, since
    [error_out] is false; the last page may be short, and a page past the
    last one is empty. *)
Definition paginate (rows : list Book.t) (page per_page : Z) : Pagination.t :=
  let page := if page <? 1 then 1 else page in
  let per_page := if per_page <? 1 then 20 else per_page in
  let total := Z.of_nat (List.length rows) in
  {| Pagination.items :=
       firstn (Z.to_nat per_page)
              (skipn (Z.to_nat ((page - 1) * per_page)) rows);
     Pagination.total := total;
     Pagination.pages :=
       if total =? 0 then 0 else (total + per_page - 1) / per_page;
     Pagination.page := page |}.

(** ** Exceptions inside a handler *)

Definition result (A : Type) : Type := (exn + A)%type.

Definition ret {A} (a : A) : result A := inr a.

Definition bind {A B} (c : result A) (k : A -> result B) : result B :=
  match c with
  | inl e => inl e
  | inr a => k a
  end.

Notation "x <- c ;; k" := (bind c (fun x => k))
  (at level 61, c at next level, right associativity).

(** A handler that writes: an exception that escapes it is answered by the
    framework and the session's changes are dropped. *)
Definition run (db : table) (c : result (outcome * table)) : outcome * table :=
  match c with
  | inl e => (Uncaught e, db)
  | inr r => r
  end.

(** ** Committing a row *)

(** Values the database driver binds as statement parameters. *)
Definition bindable (v : pyval) : bool :=
  match v with
  | PList _ | PDict _ => false
  | _ => true
  end.

(** The checks a row passes when it is written: its values are bound, then
    the constraints declared on the columns are enforced
    ([nullable=False] on title and author, [unique=True] on isbn). *)
Definition check_row (db : table) (b : Book.t) : result unit :=
  if negb (bindable (Book.title b) && bindable (Book.author b)
           && bindable (Book.year b) && bindable (Book.isbn b))
  then inl InterfaceError
  else if is_null (Book.title b) || is_null (Book.author b)
  then inl IntegrityError
  else if existsb (fun r => negb (Book.id r =? Book.id b)
                            && sql_eq (Book.isbn r) (Book.isbn b)) db
  then inl IntegrityError
  else ret tt.

(** [Book.query.filter_by(isbn=v).first()] is not [None]. *)
Definition isbn_exists (db : table) (v : pyval) : result bool :=
  if bindable v then ret (existsb (fun r => sql_eq (Book.isbn r) v) db)
  else inl InterfaceError.

(** ** Response bodies *)

Definition error_body (msg : string) : pyval :=
  PDict [("success", PBool false); ("error", PStr msg)].

Definition ok_body (msg : string) : pyval :=
  PDict [("success", PBool true); ("message", PStr msg)].

Definition book_body (msg : string) (b : Book.t) : pyval :=
  PDict [("success", PBool true); ("message", PStr msg);
         ("book", Book.to_dict b)].

(** ** The handlers *)

(** GET /api/books/<id> *)
Definition get_book (db : table) (id : Z) : outcome :=
  match query_get db id with
  | None => Response 404 (error_body "Book not found")
  | Some book =>
      Response 200 (PDict [("success", PBool true);
                           ("book", Book.to_dict book)])
  end.

(** POST /api/books; [now] is what [datetime.utcnow] returns at the insert. *)
Definition create_book (db : table) (now : datetime) (data : pyval)
    : outcome * table :=
  run db (
    if negb (truthy data) then
      ret (Response 400 (error_body "No data provided"), db)
    else
      t <- py_get data "title" ;;
      a <- (if truthy t then py_get data "author" else ret PNone) ;;
      if negb (truthy t) || negb (truthy a) then
        ret (Response 400 (error_body "Title and author are required"), db)
      else
        i <- py_get data "isbn" ;;
        existing <- (if truthy i then
                       v <- py_getitem data "isbn" ;; isbn_exists db v
                     else ret false) ;;
        if existing then
          ret (Response 400 (error_body "ISBN already exists"), db)
        else
          title <- py_getitem data "title" ;;
          author <- py_getitem data "author" ;;
          year <- py_get data "year" ;;
          isbn <- py_get data "isbn" ;;
          let new_book :=
            {| Book.id := next_id db; Book.title := title;
               Book.author := author; Book.year := year; Book.isbn := isbn;
               Book.created_at := Some now |} in
          _ <- check_row db new_book ;;
          ret (Response 201 (book_body "Book created successfully" new_book),
               (db ++ [new_book])%list)).

(** [if key in data: book.field = data[key]] *)
Definition assign (data : pyval) (k : string)
    (set : Book.t -> pyval -> Book.t) (book : Book.t) : result Book.t :=
  present <- py_in k data ;;
  if present then v <- py_getitem data k ;; ret (set book v)
  else ret book.

Definition set_title (b : Book.t) (v : pyval) : Book.t :=
  {| Book.id := Book.id b; Book.title := v; Book.author := Book.author b;
     Book.year := Book.year b; Book.isbn := Book.isbn b;
     Book.created_at := Book.created_at b |}.

Definition set_author (b : Book.t) (v : pyval) : Book.t :=
  {| Book.id := Book.id b; Book.title := Book.title b; Book.author := v;
     Book.year := Book.year b; Book.isbn := Book.isbn b;
     Book.created_at := Book.created_at b |}.

Definition set_year (b : Book.t) (v : pyval) : Book.t :=
  {| Book.id := Book.id b; Book.title := Book.title b;
     Book.author := Book.author b; Book.year := v; Book.isbn := Book.isbn b;
     Book.created_at := Book.created_at b |}.

Definition set_isbn (b : Book.t) (v : pyval) : Book.t :=
  {| Book.id := Book.id b; Book.title := Book.title b;
     Book.author := Book.author b; Book.year := Book.year b; Book.isbn := v;
     Book.created_at := Book.created_at b |}.

(** The row with this id replaced. *)
Definition replace_row (db : table) (b : Book.t) : table :=
  map (fun r => if Book.id r =? Book.id b then b else r) db.

(** PUT /api/books/<id> *)
Definition update_book (db : table) (id : Z) (data : pyval)
    : outcome * table :=
  match query_get db id with
  | None => (Response 404 (error_body "Book not found"), db)
  | Some book =>
      run db (
        if negb (truthy data) then
          ret (Response 400 (error_body "No data provided"), db)
        else
          book <- assign data "title" set_title book ;;
          book <- assign data "author" set_author book ;;
          book <- assign data "year" set_year book ;;
          book <- assign data "isbn" set_isbn book ;;
          _ <- check_row db book ;;
          ret (Response 200 (book_body "Book updated successfully" book),
               replace_row db book))
  end.

(** DELETE /api/books/<id> *)
Definition delete_book (db : table) (id : Z) : outcome * table :=
  match query_get db id with
  | None => (Response 404 (error_body "Book not found"), db)
  | Some book =>
      (Response 200 (ok_body "Book deleted successfully"),
       filter (fun r => negb (Book.id r =? Book.id book)) db)
  end.

(** GET /api/books/search *)
Definition search_books (db : table) (a : args) : outcome :=
  let query := db in
  let query :=
    match assoc "q" a with
    | Some title =>
        if negb (title =? "")%string
        then filter (fun b => ilike (Book.title b) title) query
        else query
    | None => query
    end in
  let query :=
    match assoc "author" a with
    | Some author =>
        if negb (author =? "")%string
        then filter (fun b => ilike (Book.author b) author) query
        else query
    | None => query
    end in
  let query : result (list Book.t) :=
    match assoc "year" a with
    | Some year =>
        if negb (year =? "")%string then
          match python_int year with
          | Some n => ret (filter (fun b => sql_eq (Book.year b) (PInt n)) query)
          | None => inl ValueError
          end
        else ret query
    | None => ret query
    end in
  match query with
  | inl e => Uncaught e
  | inr books =>
      Response 200 (PDict [("success", PBool true);
                           ("count", PInt (Z.of_nat (List.length books)));
                           ("books", PList (map Book.to_dict books))])
  end.

Section ListHandler.

(** The names [Book] inherits from [db.Model] and [object] ([query],
    [metadata], [__init__], ...): they come with the library, and none of
    them is a column. *)
Variable inherited : string -> bool.

Definition getattr (name : string) : Book.attribute :=
  if (name =? "id")%string then Book.Column Book.Id
  else if (name =? "title")%string then Book.Column Book.Title
  else if (name =? "author")%string then Book.Column Book.Author
  else if (name =? "year")%string then Book.Column Book.Year
  else if (name =? "isbn")%string then Book.Column Book.Isbn
  else if (name =? "created_at")%string then Book.Column Book.CreatedAt
  else if (name =? "to_dict")%string then Book.Other
  else if inherited name then Book.Other
  else Book.Missing.

(** The sorting step of [get_books]: skipped when [hasattr] is false;
    [col.asc()] and [col.desc()] exist on columns only. *)
Definition order_rows (db : table) (sort_column order : string)
    : result (list Book.t) :=
  match getattr sort_column with
  | Book.Missing => ret db
  | Book.Column col =>
      if (lower order =? "desc")%string then ret (sort_by (desc col) db)
      else ret (sort_by (asc col) db)
  | Book.Other => inl AttributeError
  end.

(** GET /api/books *)
Definition get_books (db : table) (a : args) : outcome :=
  let sort_column := args_get a "sort" "id" in
  let order := args_get a "order" "asc" in
  let page := args_get_int a "page" 1 in
  let per_page := args_get_int a "per_page" 10 in
  match order_rows db sort_column order with
  | inl e => Uncaught e
  | inr query =>
      let pagination := paginate query page per_page in
      let books := Pagination.items pagination in
      Response 200
        (PDict [("success", PBool true);
                ("count", PInt (Z.of_nat (List.length books)));
                ("total_books", PInt (Pagination.total pagination));
                ("total_pages", PInt (Pagination.pages pagination));
                ("current_page", PInt (Pagination.page pagination));
                ("sort", PStr sort_column);
                ("order", PStr order);
                ("books", PList (map Book.to_dict books))])
  end.

End ListHandler.

(** ** Seed data *)

(** [init_db]: three sample books, added when the table is empty; each row
    takes its [created_at] default when it is inserted. *)
Definition init_db (db : table) (now1 now2 now3 : datetime) : table :=
  if Z.of_nat (List.length db) =? 0 then
    [ {| Book.id := 1; Book.title := PStr "Python Crash Course";
         Book.author := PStr "Eric Matthes"; Book.year := PInt 2019;
         Book.isbn := PStr "978-1593279288"; Book.created_at := Some now1 |};
      {| Book.id := 2; Book.title := PStr "Flask Web Development";
         Book.author := PStr "Miguel Grinberg"; Book.year := PInt 2018;
         Book.isbn := PStr "978-1491991732"; Book.created_at := Some now2 |};
      {| Book.id := 3; Book.title := PStr "Clean Code";
         Book.author := PStr "Robert C. Martin"; Book.year := PInt 2008;
         Book.isbn := PStr "978-0132350884"; Book.created_at := Some now3 |} ]
  else db.

(** The table right after start-up. *)
Definition seeded (now : datetime) : table := init_db [] now now now.

(** A string of ASCII characters only. *)
Definition ascii_only (s : string) : bool :=
  forallb (fun c => (N_of_ascii c <? 128)%N) (list_ascii_of_string s).

(** The four assignments of [update_book], on a JSON object. *)
Definition updated (kv : list (string * pyval)) (book : Book.t) : Book.t :=
  let book := match assoc "title" kv with
              | Some v => set_title book v | None => book end in
  let book := match assoc "author" kv with
              | Some v => set_author book v | None => book end in
  let book := match assoc "year" kv with
              | Some v => set_year book v | None => book end in
  match assoc "isbn" kv with
  | Some v => set_isbn book v | None => book end.


(** [key in data] holds. *)
Definition present (k : string) (data : pyval) : bool :=
  match py_in k data with
  | inr true => true
  | _ => false
  end.

(** ** The requests that write, and what the table keeps *)

(** A call of [init_db] or of one of the three writing routes. *)
Inductive request :=
| InitDb (now1 now2 now3 : datetime)
| CreateBook (now : datetime) (data : pyval)
| UpdateBook (id : Z) (data : pyval)
| DeleteBook (id : Z).

(** The table after a request. *)
Definition serve (db : table) (r : request) : table :=
  match r with
  | InitDb now1 now2 now3 => init_db db now1 now2 now3
  | CreateBook now data => snd (create_book db now data)
  | UpdateBook id data => snd (update_book db id data)
  | DeleteBook id => snd (delete_book db id)
  end.

(** Ids are positive and strictly ascending along the table. *)
Definition ids_ascending (db : table) : Prop :=
  Forall (fun r => 0 < Book.id r) db /\
  StronglySorted (fun r r' => Book.id r < Book.id r') db.

(** Every stored value can be bound, and title and author are not NULL. *)
Definition row_stored (r : Book.t) : Prop :=
  bindable (Book.title r) = true /\ bindable (Book.author r) = true /\
  bindable (Book.year r) = true /\ bindable (Book.isbn r) = true /\
  is_null (Book.title r) = false /\ is_null (Book.author r) = false.

(** No two rows have isbn values that SQL finds equal. *)
Definition isbn_distinct (db : table) : Prop :=
  StronglySorted (fun r r' => sql_eq (Book.isbn r) (Book.isbn r') = false) db.

Definition table_ok (db : table) : Prop :=
  ids_ascending db /\ Forall row_stored db /\ isbn_distinct db.

(** ** What the statements about search and listing use *)


(** A needle without the characters that [LIKE] gives a meaning to. *)
Definition no_wildcard (needle : string) : bool :=
  forallb (fun c => negb ((c =? "%")%char || (c =? "_")%char))
          (list_ascii_of_string needle).

(** * Properties *)

(** ** Validation of title and author *)

(** C1. The update handler persists an empty title: on the seeded table,
    updating book 1 with the body [{"title": ""}] answers 200 and leaves
    book 1 stored with the empty string as its title, although the create
    handler refuses the same empty title with a 400. *)
Theorem update_book_persists_empty_title :
  forall now,
    let data := PDict [("title", PStr "")] in
    let r := update_book (seeded now) 1 data in
    status_of (fst r) = 200 /\
    option_map Book.title (query_get (snd r) 1) = Some (PStr "") /\
    fst (create_book (seeded now) now
           (PDict [("title", PStr ""); ("author", PStr "Eric Matthes")]))
    = Response 400 (error_body "Title and author are required").
Proof.
  intros now. cbv zeta. repeat split; reflexivity.
Qed.

(** ** Uniqueness of isbn *)

(** C2, as stated, fails: on the seeded table, updating book 1 with the isbn
    of book 3 does not succeed; the commit raises [IntegrityError] and the
    table is left as it was. *)
Lemma update_duplicate_isbn_counterexample :
  let now := mkDatetime 2024 1 1 0 0 0 0 in
  let db := seeded now in
  let data := PDict [("isbn", PStr "978-0132350884")] in
  (exists book other,
      query_get db 1 = Some book /\ In other db /\ Book.id other <> 1 /\
      Book.isbn other = PStr "978-0132350884") /\
  update_book db 1 data = (Uncaught IntegrityError, db) /\
  status_of (fst (update_book db 1 data)) <> 200.
Proof.
  cbv zeta. split; [ | split ].
  - eexists. eexists. split; [ reflexivity | ].
    split; [ right; right; left; reflexivity | ].
    split; [ discriminate | reflexivity ].
  - reflexivity.
  - discriminate.
Qed.

Lemma query_get_id :
  forall db id book, query_get db id = Some book -> Book.id book = id.
Proof.
  intros db id book H. unfold query_get in H.
  apply find_some in H. destruct H as [_ H]. lia.
Qed.

Lemma query_get_In :
  forall db id book, query_get db id = Some book -> In book db.
Proof.
  intros db id book H. unfold query_get in H.
  apply find_some in H. tauto.
Qed.

Lemma lex_compare_refl : forall k, lex_compare k k = Eq.
Proof.
  induction k as [ | x k IH ]; simpl; [ reflexivity | ].
  rewrite Z.compare_refl. exact IH.
Qed.

Lemma sql_eq_refl : forall v, is_null v = false -> sql_eq v v = true.
Proof.
  intros v H. unfold sql_eq. rewrite H, lex_compare_refl. reflexivity.
Qed.

(** On a JSON object, [assign] writes the field exactly when the key is there. *)
Lemma assign_dict :
  forall kv k set book,
    assign (PDict kv) k set book =
    ret (match assoc k kv with Some v => set book v | None => book end).
Proof.
  intros kv k set book. unfold assign, py_in, py_getitem. simpl.
  destruct (assoc k kv); reflexivity.
Qed.

Lemma assoc_some_truthy :
  forall (kv : list (string * pyval)) k v,
    assoc k kv = Some v -> truthy (PDict kv) = true.
Proof.
  intros kv k v H. destruct kv; [ discriminate | reflexivity ].
Qed.

Lemma update_book_dict :
  forall db id kv book,
    query_get db id = Some book ->
    truthy (PDict kv) = true ->
    update_book db id (PDict kv) =
    match check_row db (updated kv book) with
    | inl e => (Uncaught e, db)
    | inr _ =>
        (Response 200 (book_body "Book updated successfully" (updated kv book)),
         replace_row db (updated kv book))
    end.
Proof.
  intros db id kv book Hget Htrue. unfold update_book.
  rewrite Hget, Htrue. cbn [negb].
  rewrite !assign_dict. cbn [bind ret]. rewrite !assign_dict. cbn [bind ret].
  rewrite !assign_dict. cbn [bind ret]. rewrite !assign_dict. cbn [bind ret].
  fold (updated kv book).
  destruct (check_row db (updated kv book)); reflexivity.
Qed.

Lemma updated_id : forall kv book, Book.id (updated kv book) = Book.id book.
Proof.
  intros kv book. unfold updated.
  destruct (assoc "title" kv), (assoc "author" kv), (assoc "year" kv),
    (assoc "isbn" kv); reflexivity.
Qed.

Lemma updated_created_at :
  forall kv book, Book.created_at (updated kv book) = Book.created_at book.
Proof.
  intros kv book. unfold updated.
  destruct (assoc "title" kv), (assoc "author" kv), (assoc "year" kv),
    (assoc "isbn" kv); reflexivity.
Qed.

(** C2, amended.  The update handler has no isbn check of its own, and the
    UNIQUE constraint of the column does the refusing: for an existing id and
    a JSON object whose isbn is the isbn of a different stored book, the
    handler ends in an uncaught exception ([IntegrityError], or
    [InterfaceError] when some value cannot be bound) and the table is
    unchanged, so the update does not make two books share the isbn. *)
Theorem update_duplicate_isbn_rejected :
  forall db id kv book other s,
    query_get db id = Some book ->
    In other db ->
    Book.id other <> id ->
    Book.isbn other = PStr s ->
    assoc "isbn" kv = Some (PStr s) ->
    snd (update_book db id (PDict kv)) = db /\
    (fst (update_book db id (PDict kv)) = Uncaught IntegrityError \/
     fst (update_book db id (PDict kv)) = Uncaught InterfaceError).
Proof.
  intros db id kv book other s Hget Hin Hid Hisbn Hkv.
  rewrite (update_book_dict db id kv book Hget (assoc_some_truthy _ _ _ Hkv)).
  assert (Hnew : Book.isbn (updated kv book) = PStr s).
  { unfold updated. rewrite Hkv. reflexivity. }
  assert (Hdup : existsb (fun r => negb (Book.id r =? Book.id (updated kv book))
                            && sql_eq (Book.isbn r) (Book.isbn (updated kv book)))
                   db = true).
  { apply existsb_exists. exists other. split; [ exact Hin | ].
    rewrite updated_id, (query_get_id _ _ _ Hget), Hnew, Hisbn.
    rewrite sql_eq_refl by reflexivity.
    destruct (Z.eqb_spec (Book.id other) id); [ contradiction | reflexivity ]. }
  unfold check_row. rewrite Hdup.
  destruct (negb _); [ split; [ reflexivity | right; reflexivity ] | ].
  destruct (_ || _); split; try reflexivity; left; reflexivity.
Qed.

Lemma update_duplicate_isbn_rejected_witness :
  let db := seeded (mkDatetime 2024 1 1 0 0 0 0) in
  let kv := [("isbn", PStr "978-0132350884")] in
  snd (update_book db 1 (PDict kv)) = db /\
  (fst (update_book db 1 (PDict kv)) = Uncaught IntegrityError \/
   fst (update_book db 1 (PDict kv)) = Uncaught InterfaceError).
Proof.
  cbv zeta.
  eapply (update_duplicate_isbn_rejected
            (seeded (mkDatetime 2024 1 1 0 0 0 0)) 1
            [("isbn", PStr "978-0132350884")] _ _ "978-0132350884").
  - reflexivity.
  - right; right; left; reflexivity.
  - simpl. lia.
  - reflexivity.
  - reflexivity.
Defined.

(** ** The year filter of the search *)

(** C3, as stated, fails: a search with [year=abc] is not answered with a
    400 and a JSON error body; [int(year)] raises [ValueError], which nothing
    catches. *)
Lemma search_books_year_counterexample :
  let db := seeded (mkDatetime 2024 1 1 0 0 0 0) in
  let a := [("year", "abc")] in
  search_books db a = Uncaught ValueError /\
  status_of (search_books db a) <> 400 /\
  (forall body, search_books db a <> Response 400 body).
Proof.
  cbv zeta. split; [ reflexivity | ].
  split; [ discriminate | intros body; discriminate ].
Qed.

(** C3, amended.  For every search request whose year parameter is a
    non-empty ASCII string that [int()] does not accept, the handler raises
    an uncaught [ValueError], whatever the other filters are: the answer is
    the generic server error, not a 400 with a JSON body. *)
Theorem search_books_malformed_year :
  forall db a year,
    assoc "year" a = Some year ->
    year <> "" ->
    ascii_only year = true ->
    python_int year = None ->
    search_books db a = Uncaught ValueError /\
    status_of (search_books db a) = 500.
Proof.
  intros db a year Hyear Hne _ Hint.
  assert (Hs : search_books db a = Uncaught ValueError).
  { unfold search_books. rewrite Hyear.
    destruct (String.eqb_spec year ""); [ contradiction | ].
    cbn [negb]. rewrite Hint. reflexivity. }
  rewrite Hs. split; reflexivity.
Qed.

Lemma search_books_malformed_year_witness :
  search_books (seeded (mkDatetime 2024 1 1 0 0 0 0))
    [("q", "python"); ("year", "20x8")] = Uncaught ValueError /\
  status_of (search_books (seeded (mkDatetime 2024 1 1 0 0 0 0))
               [("q", "python"); ("year", "20x8")]) = 500.
Proof.
  apply (search_books_malformed_year _ _ "20x8").
  - reflexivity.
  - discriminate.
  - reflexivity.
  - reflexivity.
Defined.

(** ** Sorting by a name that is not a column *)

(** C4.  A sort parameter that names the method [to_dict] passes the
    [hasattr] test although it is no field of a book; [col.asc()] then raises
    [AttributeError] and the request ends in a server error instead of an
    unsorted 200. *)
Theorem get_books_sort_to_dict_raises :
  forall inherited now,
    getattr inherited "to_dict" = Book.Other /\
    get_books inherited (seeded now) [("sort", "to_dict")]
    = Uncaught AttributeError /\
    status_of (get_books inherited (seeded now) [("sort", "to_dict")]) = 500.
Proof.
  intros inherited now. repeat split; reflexivity.
Qed.

(** ** Validation order of the create handler *)

(** The three refusals of the create handler, in the order of the code: a
    falsy body, then a falsy title or author, then a truthy isbn that a
    stored book already has. *)
Lemma create_book_refusals :
  forall db now data,
    (truthy data = false ->
     create_book db now data
     = (Response 400 (error_body "No data provided"), db)) /\
    (forall kv t a,
        data = PDict kv -> truthy data = true ->
        py_get data "title" = inr t -> py_get data "author" = inr a ->
        truthy t && truthy a = false ->
        create_book db now data
        = (Response 400 (error_body "Title and author are required"), db)) /\
    (forall kv t a i,
        data = PDict kv ->
        py_get data "title" = inr t -> py_get data "author" = inr a ->
        truthy t && truthy a = true ->
        assoc "isbn" kv = Some i -> truthy i = true ->
        isbn_exists db i = inr true ->
        create_book db now data
        = (Response 400 (error_body "ISBN already exists"), db)).
Proof.
  intros db now data. unfold create_book. split; [ | split ].
  - intros ->. reflexivity.
  - intros kv t a -> -> Ht Ha Hta. simpl in Ht, Ha. injection Ht as Ht.
    injection Ha as Ha. cbn [negb py_get bind]. rewrite Ht.
    destruct (truthy t); cbn [bind ret negb orb run]; [ | reflexivity ].
    rewrite Ha. cbn [andb] in Hta. rewrite Hta. reflexivity.
  - intros kv t a i -> Ht Ha Hta Hi Hti Hex.
    assert (Hd : truthy (PDict kv) = true)
      by (destruct kv; [ discriminate | reflexivity ]).
    rewrite Hd. simpl in Ht, Ha. injection Ht as Ht. injection Ha as Ha.
    apply andb_prop in Hta. destruct Hta as [Htt Hat].
    cbn [negb py_get py_getitem bind]. rewrite Ht, Htt.
    cbn [bind ret]. rewrite Ha, Hat, Hi, Hti. cbn [negb orb bind ret].
    rewrite Hex. reflexivity.
Qed.

(** C6.  An empty-string isbn slips past the duplicate check ([""] is
    falsy) and is stored as it is; a second create with an empty isbn then
    violates the UNIQUE constraint at commit and ends in an uncaught
    [IntegrityError] instead of the 400 "ISBN already exists" or a 201. *)
Theorem create_book_empty_isbn_twice :
  forall now,
    let data := PDict [("title", PStr "T"); ("author", PStr "A");
                       ("isbn", PStr "")] in
    let first := create_book (seeded now) now data in
    status_of (fst first) = 201 /\
    option_map Book.isbn (query_get (snd first) 4) = Some (PStr "") /\
    create_book (snd first) now data = (Uncaught IntegrityError, snd first).
Proof.
  intros now. cbv zeta. repeat split; reflexivity.
Qed.

(** ** Delete, then get *)



(** ** Create, then get *)

Lemma next_id_above :
  forall db r, In r db -> Book.id r < next_id db.
Proof.
  unfold next_id. induction db as [ | b db IH ]; intros r Hr; simpl in *.
  - contradiction.
  - destruct Hr as [ -> | Hr ]; [ lia | ].
    specialize (IH r Hr). lia.
Qed.





(** ** Partial update *)

Lemma assign_cases :
  forall data k set b b',
    assign data k set b = inr b' ->
    (present k data = true /\
     exists v, py_getitem data k = inr v /\ b' = set b v)
    \/ (present k data = false /\ b' = b).
Proof.
  intros data k set b b' H. unfold assign, present in *.
  destruct (py_in k data) as [ e | [ | ] ]; cbn [bind ret] in H.
  - discriminate.
  - destruct (py_getitem data k) as [ e | v ]; cbn [bind ret] in H;
      [ discriminate | ].
    injection H as <-. left. split; [ reflexivity | ].
    exists v. split; reflexivity.
  - injection H as <-. right. split; reflexivity.
Qed.

Lemma query_get_replace_row :
  forall db id book b',
    query_get db id = Some book ->
    Book.id b' = id ->
    query_get (replace_row db b') id = Some b'.
Proof.
  intros db id book b' Hget Hid. subst id. unfold query_get, replace_row in *.
  induction db as [ | r db IH ]; simpl in *; [ discriminate | ].
  destruct (Z.eqb_spec (Book.id r) (Book.id b')) as [ E | N ].
  - rewrite Z.eqb_refl. reflexivity.
  - destruct (Z.eqb_spec (Book.id r) (Book.id b')); [ contradiction | ].
    apply IH. exact Hget.
Qed.

(** The outcome of an update that found its book: either nothing was
    written, or the four assignments were made and committed. *)
Lemma update_book_cases :
  forall db id data book,
    query_get db id = Some book ->
    (snd (update_book db id data) = db /\
     forall body, fst (update_book db id data) <> Response 200 body)
    \/ exists b1 b2 b3 b4,
         assign data "title" set_title book = inr b1 /\
         assign data "author" set_author b1 = inr b2 /\
         assign data "year" set_year b2 = inr b3 /\
         assign data "isbn" set_isbn b3 = inr b4 /\
         update_book db id data
         = (Response 200 (book_body "Book updated successfully" b4),
            replace_row db b4).
Proof.
  intros db id data book Hget. unfold update_book. rewrite Hget.
  destruct (truthy data); cbn [negb];
    [ | left; split; [ reflexivity | intros body; discriminate ] ].
  destruct (assign data "title" set_title book) as [ e | b1 ] eqn:E1;
    cbn [bind run];
    [ left; split; [ reflexivity | intros body; discriminate ] | ].
  destruct (assign data "author" set_author b1) as [ e | b2 ] eqn:E2;
    cbn [bind run];
    [ left; split; [ reflexivity | intros body; discriminate ] | ].
  destruct (assign data "year" set_year b2) as [ e | b3 ] eqn:E3;
    cbn [bind run];
    [ left; split; [ reflexivity | intros body; discriminate ] | ].
  destruct (assign data "isbn" set_isbn b3) as [ e | b4 ] eqn:E4;
    cbn [bind run];
    [ left; split; [ reflexivity | intros body; discriminate ] | ].
  destruct (check_row db b4) as [ e | [] ]; cbn [bind run ret];
    [ left; split; [ reflexivity | intros body; discriminate ] | ].
  right. exists b1, b2, b3, b4. repeat split; reflexivity || assumption.
Qed.



(** ** Ordering of rows *)

Lemma lex_compare_antisym :
  forall k1 k2, lex_compare k2 k1 = CompOpp (lex_compare k1 k2).
Proof.
  induction k1 as [ | x r1 IH ]; destruct k2 as [ | y r2 ]; simpl;
    try reflexivity.
  rewrite (Z.compare_antisym x y).
  destruct (x ?= y); simpl; [ apply IH | reflexivity | reflexivity ].
Qed.




Section InsertionSort.

Variable le : Book.t -> Book.t -> bool.
Hypothesis le_total : forall x y, le x y = true \/ le y x = true.
Hypothesis le_trans :
  forall x y z, le x y = true -> le y z = true -> le x z = true.





End InsertionSort.




(** ** The list handler *)










(** ** What every sequence of requests keeps *)

Lemma sql_eq_sym : forall a b, sql_eq a b = sql_eq b a.
Proof.
  intros a b. unfold sql_eq.
  rewrite (lex_compare_antisym (sort_key a) (sort_key b)).
  destruct (is_null a), (is_null b),
    (lex_compare (sort_key a) (sort_key b)); reflexivity.
Qed.

Lemma StronglySorted_snoc :
  forall (R : Book.t -> Book.t -> Prop) l x,
    StronglySorted R l -> Forall (fun r => R r x) l ->
    StronglySorted R (l ++ [x])%list.
Proof.
  intros R l x Hl Hx. induction Hl as [ | y l Hl IH Hy ]; simpl.
  - constructor; constructor.
  - inversion Hx as [ | ? ? Hyx Hrest ]; subst.
    constructor; [ apply IH; exact Hrest | ].
    apply Forall_app. split; [ exact Hy | ].
    constructor; [ exact Hyx | constructor ].
Qed.

Lemma StronglySorted_filter :
  forall (R : Book.t -> Book.t -> Prop) (f : Book.t -> bool) l,
    StronglySorted R l -> StronglySorted R (filter f l).
Proof.
  intros R f l Hl. induction Hl as [ | y l Hl IH Hy ]; simpl.
  - constructor.
  - destruct (f y); [ | exact IH ].
    constructor; [ exact IH | ].
    apply Forall_forall. intros z Hz. apply filter_In in Hz.
    apply (proj1 (Forall_forall _ _) Hy z). tauto.
Qed.

Lemma Forall_filter :
  forall (P : Book.t -> Prop) (f : Book.t -> bool) l,
    Forall P l -> Forall P (filter f l).
Proof.
  intros P f l H. apply Forall_forall. intros z Hz.
  apply filter_In in Hz. apply (proj1 (Forall_forall _ _) H z). tauto.
Qed.

Lemma next_id_positive : forall db, 0 < next_id db.
Proof.
  intros db. unfold next_id.
  assert (0 <= fold_right (fun b m => Z.max (Book.id b) m) 0 db).
  { induction db as [ | b db IH ]; simpl; lia. }
  lia.
Qed.

(** A row that passed [check_row] can be stored next to the others. *)
Lemma check_row_passed :
  forall db b,
    check_row db b = inr tt ->
    row_stored b /\
    forall r, In r db -> Book.id r <> Book.id b ->
              sql_eq (Book.isbn r) (Book.isbn b) = false.
Proof.
  intros db b H. unfold check_row in H.
  destruct (bindable (Book.title b)) eqn:B1; [ | discriminate ].
  destruct (bindable (Book.author b)) eqn:B2; [ | discriminate ].
  destruct (bindable (Book.year b)) eqn:B3; [ | discriminate ].
  destruct (bindable (Book.isbn b)) eqn:B4; [ | discriminate ].
  cbn [andb negb] in H.
  destruct (is_null (Book.title b)) eqn:N1; [ discriminate | ].
  destruct (is_null (Book.author b)) eqn:N2; [ discriminate | ].
  cbn [orb] in H.
  destruct (existsb _ db) eqn:E; [ discriminate | ].
  split; [ repeat split; assumption | ].
  intros r Hr Hid.
  destruct (sql_eq (Book.isbn r) (Book.isbn b)) eqn:Q; [ | reflexivity ].
  assert (existsb (fun r => negb (Book.id r =? Book.id b)
                            && sql_eq (Book.isbn r) (Book.isbn b)) db = true).
  { apply existsb_exists. exists r. split; [ exact Hr | ].
    rewrite Q. destruct (Z.eqb_spec (Book.id r) (Book.id b));
      [ contradiction | reflexivity ]. }
  congruence.
Qed.

(** What a successful create has committed. *)
Lemma create_book_committed :
  forall db now data body db',
    create_book db now data = (Response 201 body, db') ->
    exists book,
      db' = (db ++ [book])%list /\
      Book.id book = next_id db /\
      check_row db book = inr tt.
Proof.
  intros db now data body db' H. unfold create_book in H.
  destruct (truthy data); cbn [negb] in H; [ | discriminate ].
  destruct (py_get data "title") as [ e | t ]; cbn [bind run] in H;
    [ discriminate | ].
  destruct (truthy t); cbn [negb orb] in H; [ | cbn in H; discriminate ].
  destruct (py_get data "author") as [ e | a ]; cbn [bind run] in H;
    [ discriminate | ].
  destruct (truthy a); cbn [negb] in H; [ | discriminate ].
  destruct (py_get data "isbn") as [ e | i ]; cbn [bind run] in H;
    [ discriminate | ].
  destruct (if truthy i then _ else _) as [ e | existing ]; cbn [bind run] in H;
    [ discriminate | ].
  destruct existing; [ discriminate | ].
  destruct (py_getitem data "title") as [ e | title ]; cbn [bind run] in H;
    [ discriminate | ].
  destruct (py_getitem data "author") as [ e | author ]; cbn [bind run] in H;
    [ discriminate | ].
  destruct (py_get data "year") as [ e | year ]; cbn [bind run] in H;
    [ discriminate | ].
  destruct (check_row db _) as [ e | [] ] eqn:C; cbn [bind run ret] in H;
    [ discriminate | ].
  injection H as <- <-.
  eexists. split; [ reflexivity | ]. split; [ reflexivity | exact C ].
Qed.

(** A create changes the table only when it answers 201. *)
Lemma create_book_unchanged :
  forall db now data,
    (exists body, fst (create_book db now data) = Response 201 body)
    \/ snd (create_book db now data) = db.
Proof.
  intros db now data. unfold create_book.
  destruct (truthy data); cbn [negb]; [ | right; reflexivity ].
  destruct (py_get data "title") as [ e | t ]; cbn [bind run];
    [ right; reflexivity | ].
  destruct (truthy t); cbn [negb orb]; [ | right; reflexivity ].
  destruct (py_get data "author") as [ e | a ]; cbn [bind run];
    [ right; reflexivity | ].
  destruct (truthy a); cbn [negb]; [ | right; reflexivity ].
  destruct (py_get data "isbn") as [ e | i ]; cbn [bind run];
    [ right; reflexivity | ].
  destruct (if truthy i then _ else _) as [ e | existing ]; cbn [bind run];
    [ right; reflexivity | ].
  destruct existing; [ right; reflexivity | ].
  destruct (py_getitem data "title") as [ e | title ]; cbn [bind run];
    [ right; reflexivity | ].
  destruct (py_getitem data "author") as [ e | author ]; cbn [bind run];
    [ right; reflexivity | ].
  destruct (py_get data "year") as [ e | year ]; cbn [bind run];
    [ right; reflexivity | ].
  destruct (check_row db _) as [ e | [] ]; cbn [bind run ret];
    [ right; reflexivity | ].
  left. eexists. reflexivity.
Qed.

Lemma replace_row_id :
  forall db b, map Book.id (replace_row db b) = map Book.id db.
Proof.
  intros db b. unfold replace_row. rewrite map_map. apply map_ext.
  intros r. destruct (Z.eqb_spec (Book.id r) (Book.id b)); congruence.
Qed.

Lemma replace_row_fresh :
  forall db b,
    Forall (fun r => Book.id b < Book.id r) db -> replace_row db b = db.
Proof.
  intros db b H. unfold replace_row.
  induction H as [ | r db Hr _ IH ]; simpl; [ reflexivity | ].
  rewrite IH. destruct (Z.eqb_spec (Book.id r) (Book.id b)); [ lia | reflexivity ].
Qed.

Lemma replace_row_In :
  forall db b x, In x (replace_row db b) -> x = b \/ In x db.
Proof.
  intros db b x H. unfold replace_row in H. apply in_map_iff in H.
  destruct H as (r & Hx & Hr).
  destruct (Book.id r =? Book.id b); [ left | right ]; congruence.
Qed.

Lemma replace_row_ids_ascending :
  forall db b, ids_ascending db -> ids_ascending (replace_row db b).
Proof.
  intros db b [Hpos Hasc]. unfold ids_ascending, replace_row.
  induction db as [ | r db IH ]; simpl.
  - split; constructor.
  - inversion Hpos as [ | ? ? Hr Hpos' ]; subst.
    inversion Hasc as [ | ? ? Hasc' Hlt ]; subst.
    destruct (IH Hpos' Hasc') as [IHpos IHasc].
    assert (Hid : Book.id (if Book.id r =? Book.id b then b else r)
                  = Book.id r).
    { destruct (Z.eqb_spec (Book.id r) (Book.id b)); congruence. }
    split.
    + constructor; [ rewrite Hid; exact Hr | exact IHpos ].
    + constructor; [ exact IHasc | ].
      apply Forall_forall. intros x Hx. rewrite Hid.
      apply in_map_iff in Hx. destruct Hx as (r' & <- & Hr').
      pose proof (proj1 (Forall_forall _ _) Hlt r' Hr') as L.
      cbv beta in L.
      destruct (Z.eqb_spec (Book.id r') (Book.id b)); [ lia | exact L ].
Qed.

Lemma replace_row_isbn_distinct :
  forall db b,
    ids_ascending db ->
    isbn_distinct db ->
    (forall r, In r db -> Book.id r <> Book.id b ->
               sql_eq (Book.isbn r) (Book.isbn b) = false) ->
    isbn_distinct (replace_row db b).
Proof.
  intros db b [_ Hasc] Hd Hb. unfold isbn_distinct in *.
  induction db as [ | r db IH ]; [ constructor | ].
  inversion Hasc as [ | ? ? Hasc' Hlt ]; subst.
  inversion Hd as [ | ? ? Hd' Hne ]; subst.
  change (replace_row (r :: db) b)
    with ((if Book.id r =? Book.id b then b else r) :: replace_row db b).
  destruct (Z.eqb_spec (Book.id r) (Book.id b)) as [ E | N ].
  - rewrite replace_row_fresh.
    + constructor; [ exact Hd' | ].
      apply Forall_forall. intros x Hx. rewrite sql_eq_sym.
      apply Hb; [ right; exact Hx | ].
      pose proof (proj1 (Forall_forall _ _) Hlt x Hx) as L.
      cbv beta in L. lia.
    + rewrite <- E. exact Hlt.
  - constructor.
    + apply IH; [ exact Hasc' | exact Hd' | ].
      intros x Hx. apply Hb. right. exact Hx.
    + apply Forall_forall. intros x Hx.
      destruct (replace_row_In _ _ _ Hx) as [ -> | Hin ].
      * apply Hb; [ left; reflexivity | exact N ].
      * apply (proj1 (Forall_forall _ _) Hne x Hin).
Qed.

(** An update changes the table only by committing a checked row that keeps
    the id of the book it found. *)
Lemma update_book_committed :
  forall db id data,
    snd (update_book db id data) = db
    \/ exists b, check_row db b = inr tt /\
                 snd (update_book db id data) = replace_row db b.
Proof.
  intros db id data. unfold update_book.
  destruct (query_get db id) as [ book | ]; [ | left; reflexivity ].
  destruct (truthy data); cbn [negb]; [ | left; reflexivity ].
  destruct (assign data "title" set_title book) as [ e | b1 ];
    cbn [bind run]; [ left; reflexivity | ].
  destruct (assign data "author" set_author b1) as [ e | b2 ];
    cbn [bind run]; [ left; reflexivity | ].
  destruct (assign data "year" set_year b2) as [ e | b3 ];
    cbn [bind run]; [ left; reflexivity | ].
  destruct (assign data "isbn" set_isbn b3) as [ e | b4 ];
    cbn [bind run]; [ left; reflexivity | ].
  destruct (check_row db b4) as [ e | [] ] eqn:C; cbn [bind run ret];
    [ left; reflexivity | ].
  right. exists b4. split; [ exact C | reflexivity ].
Qed.

Lemma table_ok_nil : table_ok [].
Proof.
  repeat split; constructor.
Qed.

(** Each writing request keeps the table well formed. *)
Lemma serve_keeps_table_ok :
  forall db r, table_ok db -> table_ok (serve db r).
Proof.
  intros db r Hok. destruct Hok as ([Hpos Hasc] & Hst & Hd).
  destruct r as [ now1 now2 now3 | now data | id data | id ]; simpl.
  - unfold init_db. destruct db as [ | b db ].
    + simpl. repeat split;
        repeat (constructor; try lia; try reflexivity).
    + cbn [List.length]. rewrite Nat2Z.inj_succ.
      destruct (Z.eqb_spec (Z.succ (Z.of_nat (List.length db))) 0);
        [ lia | ].
      repeat split; assumption.
  - destruct (create_book_unchanged db now data) as [ [body Hb] | -> ];
      [ | repeat split; assumption ].
    destruct (create_book db now data) as [out db'] eqn:E.
    cbn [fst snd] in *. subst out.
    destruct (create_book_committed _ _ _ _ _ E) as (b & -> & Hid & Hc).
    destruct (check_row_passed _ _ Hc) as [Hb Hiso].
    assert (Habove : Forall (fun r => Book.id r < Book.id b) db).
    { apply Forall_forall. intros x Hx. rewrite Hid.
      apply next_id_above. exact Hx. }
    repeat split.
    + apply Forall_app. split; [ exact Hpos | ].
      constructor; [ | constructor ].
      rewrite Hid. apply next_id_positive.
    + apply StronglySorted_snoc; assumption.
    + apply Forall_app. split; [ exact Hst | ].
      constructor; [ exact Hb | constructor ].
    + apply StronglySorted_snoc; [ exact Hd | ].
      apply Forall_forall. intros x Hx. apply Hiso; [ exact Hx | ].
      pose proof (proj1 (Forall_forall _ _) Habove x Hx) as L.
      cbv beta in L. lia.
  - destruct (update_book_committed db id data) as [ -> | (b & Hc & ->) ];
      [ repeat split; assumption | ].
    destruct (check_row_passed _ _ Hc) as [Hb Hiso].
    split; [ | split ].
    + apply replace_row_ids_ascending. split; assumption.
    + apply Forall_forall. intros x Hx.
      destruct (replace_row_In _ _ _ Hx) as [ -> | Hin ];
        [ exact Hb | apply (proj1 (Forall_forall _ _) Hst x Hin) ].
    + apply replace_row_isbn_distinct; [ split; assumption | exact Hd | exact Hiso ].
  - unfold delete_book. destruct (query_get db id) as [ book | ];
      cbn [snd]; [ | repeat split; assumption ].
    split; [ split | split ].
    + apply Forall_filter. exact Hpos.
    + apply StronglySorted_filter. exact Hasc.
    + apply Forall_filter. exact Hst.
    + apply StronglySorted_filter. exact Hd.
Qed.

(** X1.  Starting from the empty table, after any sequence of [init_db],
    create, update and delete requests the ids of the stored books are
    positive and strictly ascending (so no two books share an id), no title
    or author is NULL, and no two books have equal non-NULL isbn values. *)
Theorem requests_keep_table_ok :
  forall reqs, table_ok (fold_left serve reqs []).
Proof.
  intros reqs.
  assert (H : forall db, table_ok db -> table_ok (fold_left serve reqs db)).
  { induction reqs as [ | r reqs IH ]; intros db Hok; simpl.
    - exact Hok.
    - apply IH. apply serve_keeps_table_ok. exact Hok. }
  apply H. apply table_ok_nil.
Qed.

(** ** More on the create handler *)


Lemma query_get_app_old :
  forall db extra id b,
    query_get db id = Some b -> query_get (db ++ extra)%list id = Some b.
Proof.
  intros db extra id b H. unfold query_get in *.
  induction db as [ | r db IH ]; simpl in *; [ discriminate | ].
  destruct (Book.id r =? id); [ exact H | apply IH; exact H ].
Qed.

(** What a create that answered 201 found in its body. *)
Lemma create_book_success_inv :
  forall db now data body db',
    create_book db now data = (Response 201 body, db') ->
    exists kv t a,
      data = PDict kv /\
      assoc "title" kv = Some t /\ truthy t = true /\
      assoc "author" kv = Some a /\ truthy a = true /\
      db' = (db ++ [ {| Book.id := next_id db; Book.title := t;
                        Book.author := a;
                        Book.year := match assoc "year" kv with
                                     | Some v => v | None => PNone end;
                        Book.isbn := match assoc "isbn" kv with
                                     | Some v => v | None => PNone end;
                        Book.created_at := Some now |} ])%list.
Proof.
  intros db now data body db' H. unfold create_book in H.
  destruct (truthy data); cbn [negb] in H; [ | discriminate ].
  destruct data as [ | | | | | | kv ]; try discriminate.
  cbn [py_get py_getitem bind] in H.
  destruct (assoc "title" kv) as [ t | ] eqn:Et;
    [ | cbn in H; discriminate ].
  destruct (truthy t) eqn:Ht; cbn [negb orb bind ret] in H;
    [ | discriminate ].
  destruct (assoc "author" kv) as [ a | ] eqn:Ea;
    [ | cbn in H; discriminate ].
  destruct (truthy a) eqn:Ha; cbn [negb] in H; [ | discriminate ].
  destruct (if truthy _ then _ else _) as [ e | existing ]; cbn [bind run] in H;
    [ discriminate | ].
  destruct existing; [ discriminate | ].
  cbn [bind ret] in H.
  destruct (check_row db _) as [ e | [] ]; cbn [bind run ret] in H;
    [ discriminate | ].
  injection H as <- <-.
  exists kv, t, a. repeat split; assumption || reflexivity.
Qed.

(** X2.  A create either answers 201 and appends exactly one row, whose id
    is larger than every stored id and whose title and author are truthy, or
    it answers something else and leaves the table as it was; in both cases
    every book that could be fetched before is fetched unchanged after. *)
Theorem create_book_effect :
  forall db now data,
    ((exists body book,
         fst (create_book db now data) = Response 201 body /\
         snd (create_book db now data) = (db ++ [book])%list /\
         (forall r, In r db -> Book.id r < Book.id book) /\
         truthy (Book.title book) = true /\
         truthy (Book.author book) = true /\
         Book.created_at book = Some now)
     \/ (status_of (fst (create_book db now data)) <> 201 /\
         snd (create_book db now data) = db)) /\
    (forall id b,
        query_get db id = Some b ->
        query_get (snd (create_book db now data)) id = Some b).
Proof.
  intros db now data.
  destruct (create_book db now data) as [out db'] eqn:E. cbn [fst snd].
  destruct (create_book_unchanged db now data) as [ [body Hb] | Hsame ];
    rewrite E in *; cbn [fst snd] in *.
  - subst out.
    destruct (create_book_success_inv _ _ _ _ _ E)
      as (kv & t & a & _ & _ & Ht & _ & Ha & ->).
    split.
    + left. eexists. eexists. split; [ reflexivity | ].
      split; [ reflexivity | ].
      split; [ intros r Hr; apply next_id_above; exact Hr | ].
      repeat split; assumption.
    + intros id b Hget. apply query_get_app_old. exact Hget.
  - subst db'. split; [ | intros id b Hget; exact Hget ].
    right. split; [ | reflexivity ].
    intros Hst. destruct out as [ st body | e ]; [ | discriminate ].
    cbn in Hst. subst st.
    destruct (create_book_committed _ _ _ _ _ E) as (b & Hdb & _).
    apply (f_equal (@List.length Book.t)) in Hdb.
    rewrite length_app in Hdb. simpl in Hdb. lia.
Qed.



(** X4.  A JSON object with truthy title and author whose isbn is a
    non-empty string that a stored book already has is refused with 400 and
    the message "ISBN already exists", and the table is unchanged. *)
Theorem create_book_duplicate_isbn :
  forall db now kv t a s other,
    assoc "title" kv = Some t -> truthy t = true ->
    assoc "author" kv = Some a -> truthy a = true ->
    assoc "isbn" kv = Some (PStr s) -> s <> "" ->
    In other db -> Book.isbn other = PStr s ->
    create_book db now (PDict kv)
    = (Response 400 (error_body "ISBN already exists"), db).
Proof.
  intros db now kv t a s other Et Ht Ea Ha Ei Hs Hin Hother.
  destruct (create_book_refusals db now (PDict kv)) as (_ & _ & H).
  apply (H kv t a (PStr s)); try reflexivity.
  - cbn [py_get]. rewrite Et. reflexivity.
  - cbn [py_get]. rewrite Ea. reflexivity.
  - rewrite Ht, Ha. reflexivity.
  - exact Ei.
  - cbn [truthy]. destruct (String.eqb_spec s ""); [ contradiction | reflexivity ].
  - unfold isbn_exists, ret. cbn [bindable]. f_equal.
    apply existsb_exists. exists other. split; [ exact Hin | ].
    rewrite Hother. apply sql_eq_refl. reflexivity.
Qed.

Lemma create_book_duplicate_isbn_witness :
  let db := seeded (mkDatetime 2024 1 1 0 0 0 0) in
  create_book db (mkDatetime 2024 5 6 7 8 9 0)
    (PDict [("title", PStr "T"); ("author", PStr "A");
            ("isbn", PStr "978-1491991732")])
  = (Response 400 (error_body "ISBN already exists"), db).
Proof.
  intros db.
  eapply (create_book_duplicate_isbn db _ _ (PStr "T") (PStr "A")
            "978-1491991732").
  - reflexivity.
  - reflexivity.
  - reflexivity.
  - reflexivity.
  - reflexivity.
  - discriminate.
  - right; left; reflexivity.
  - reflexivity.
Defined.

(** ** More on the update handler *)

Lemma query_get_replace_row_other :
  forall db b id,
    id <> Book.id b -> query_get (replace_row db b) id = query_get db id.
Proof.
  intros db b id Hne. unfold query_get, replace_row.
  induction db as [ | r db IH ]; simpl; [ reflexivity | ].
  destruct (Z.eqb_spec (Book.id r) (Book.id b)) as [ E | N ].
  - destruct (Z.eqb_spec (Book.id b) id); [ congruence | ].
    destruct (Z.eqb_spec (Book.id r) id); [ congruence | exact IH ].
  - destruct (Book.id r =? id); [ reflexivity | exact IH ].
Qed.

(** An assignment that went through does the same to any other row. *)
Lemma assign_again :
  forall data k set b b',
    assign data k set b = inr b' ->
    (exists v, b' = set b v /\ forall c, assign data k set c = inr (set c v))
    \/ (b' = b /\ forall c, assign data k set c = inr c).
Proof.
  intros data k set b b' H. unfold assign in *.
  destruct (py_in k data) as [ e | [ | ] ]; cbn [bind ret] in *.
  - discriminate.
  - destruct (py_getitem data k) as [ e | v ]; cbn [bind ret] in *;
      [ discriminate | ].
    injection H as <-. left. exists v. split; [ reflexivity | ].
    intros c. reflexivity.
  - injection H as <-. right. split; [ reflexivity | ].
    intros c. reflexivity.
Qed.

Lemma replace_row_twice :
  forall db b, replace_row (replace_row db b) b = replace_row db b.
Proof.
  intros db b. unfold replace_row. rewrite map_map. apply map_ext.
  intros r. destruct (Z.eqb_spec (Book.id r) (Book.id b)) as [ E | N ].
  - rewrite Z.eqb_refl. reflexivity.
  - destruct (Z.eqb_spec (Book.id r) (Book.id b)); [ contradiction | reflexivity ].
Qed.

Lemma check_row_replace_row :
  forall db b, check_row (replace_row db b) b = check_row db b.
Proof.
  intros db b. unfold check_row.
  replace (existsb (fun r => negb (Book.id r =? Book.id b)
                             && sql_eq (Book.isbn r) (Book.isbn b))
             (replace_row db b))
    with (existsb (fun r => negb (Book.id r =? Book.id b)
                            && sql_eq (Book.isbn r) (Book.isbn b)) db);
    [ reflexivity | ].
  unfold replace_row. induction db as [ | r db IH ]; simpl; [ reflexivity | ].
  rewrite IH. f_equal.
  destruct (Z.eqb_spec (Book.id r) (Book.id b)) as [ E | N ].
  - rewrite Z.eqb_refl. reflexivity.
  - destruct (Z.eqb_spec (Book.id r) (Book.id b)); [ contradiction | reflexivity ].
Qed.

(** X5.  An update keeps the ids of the table, row by row, and changes
    nothing about any book other than the one it was asked to update. *)
Theorem update_book_others_untouched :
  forall db id data,
    map Book.id (snd (update_book db id data)) = map Book.id db /\
    forall id', id' <> id ->
                query_get (snd (update_book db id data)) id'
                = query_get db id'.
Proof.
  intros db id data.
  destruct (query_get db id) as [ book | ] eqn:Hget.
  - destruct (update_book_cases db id data book Hget)
      as [ [Hdb _] | (b1 & b2 & b3 & b4 & E1 & E2 & E3 & E4 & Hup) ].
    + rewrite Hdb. split; [ reflexivity | intros; reflexivity ].
    + rewrite Hup. cbn [snd]. split; [ apply replace_row_id | ].
      intros id' Hne. apply query_get_replace_row_other.
      apply assign_cases in E1, E2, E3, E4.
      assert (Hid : Book.id b4 = Book.id book).
      { destruct E1 as [ (_ & ? & _ & ->) | (_ & ->) ],
                 E2 as [ (_ & ? & _ & ->) | (_ & ->) ],
                 E3 as [ (_ & ? & _ & ->) | (_ & ->) ],
                 E4 as [ (_ & ? & _ & ->) | (_ & ->) ]; reflexivity. }
      rewrite Hid, (query_get_id _ _ _ Hget). exact Hne.
  - unfold update_book. rewrite Hget. cbn [snd].
    split; [ reflexivity | intros; reflexivity ].
Qed.

(** X6.  The update is idempotent: sending the same update again, to the
    table the first one left, gives the same answer and the same table. *)
Theorem update_book_idempotent :
  forall db id data,
    update_book (snd (update_book db id data)) id data
    = update_book db id data.
Proof.
  intros db id data.
  destruct (query_get db id) as [ book | ] eqn:Hget.
  2:{ unfold update_book at 2. rewrite Hget. cbn [snd]. reflexivity. }
  destruct (update_book_cases db id data book Hget)
    as [ [Hdb _] | (b1 & b2 & b3 & b4 & E1 & E2 & E3 & E4 & Hup) ].
  { rewrite Hdb. reflexivity. }
  rewrite Hup. cbn [snd].
  assert (Htrue : truthy data = true).
  { destruct (truthy data) eqn:T; [ reflexivity | ].
    unfold update_book in Hup. rewrite Hget, T in Hup. discriminate. }
  assert (Hc : check_row db b4 = inr tt).
  { unfold update_book in Hup. rewrite Hget, Htrue in Hup.
    cbn [negb] in Hup. rewrite E1 in Hup. cbn [bind] in Hup.
    rewrite E2 in Hup. cbn [bind] in Hup. rewrite E3 in Hup.
    cbn [bind] in Hup. rewrite E4 in Hup. cbn [bind] in Hup.
    destruct (check_row db b4) as [ e | [] ]; [ discriminate | reflexivity ]. }
  assert (Hid : Book.id b4 = id).
  { rewrite <- (query_get_id _ _ _ Hget).
    pose proof E1 as F1. pose proof E2 as F2.
    pose proof E3 as F3. pose proof E4 as F4.
    apply assign_cases in F1, F2, F3, F4.
    destruct F1 as [ (_ & ? & _ & ->) | (_ & ->) ],
             F2 as [ (_ & ? & _ & ->) | (_ & ->) ],
             F3 as [ (_ & ? & _ & ->) | (_ & ->) ],
             F4 as [ (_ & ? & _ & ->) | (_ & ->) ]; reflexivity. }
  apply assign_again in E1, E2, E3, E4.
  unfold update_book.
  rewrite (query_get_replace_row db id book b4 Hget Hid), Htrue.
  cbn [negb].
  assert (Hround :
            bind (assign data "title" set_title b4) (fun c1 =>
            bind (assign data "author" set_author c1) (fun c2 =>
            bind (assign data "year" set_year c2) (fun c3 =>
                  assign data "isbn" set_isbn c3))) = inr b4).
  { destruct E1 as [ (v1 & -> & A1) | (-> & A1) ],
             E2 as [ (v2 & -> & A2) | (-> & A2) ],
             E3 as [ (v3 & -> & A3) | (-> & A3) ],
             E4 as [ (v4 & -> & A4) | (-> & A4) ];
      rewrite A1; cbn [bind]; rewrite A2; cbn [bind];
      rewrite A3; cbn [bind]; rewrite A4; destruct book; reflexivity. }
  destruct (assign data "title" set_title b4) as [ e | c1 ];
    cbn [bind] in Hround |- *; [ discriminate | ].
  destruct (assign data "author" set_author c1) as [ e | c2 ];
    cbn [bind] in Hround |- *; [ discriminate | ].
  destruct (assign data "year" set_year c2) as [ e | c3 ];
    cbn [bind] in Hround |- *; [ discriminate | ].
  rewrite Hround. cbn [bind].
  rewrite check_row_replace_row, Hc. cbn [bind run ret].
  rewrite replace_row_twice. reflexivity.
Qed.

(** ** The search handler *)





Lemma list_ascii_of_string_app :
  forall s1 s2,
    list_ascii_of_string (s1 ++ s2)
    = (list_ascii_of_string s1 ++ list_ascii_of_string s2)%list.
Proof.
  induction s1 as [ | c s1 IH ]; intros s2; simpl; [ reflexivity | ].
  rewrite IH. reflexivity.
Qed.

(** The equation of [like] at a leading [%]. *)
Lemma like_percent :
  forall p s,
    like ("%"%char :: p) s
    = like p s || match s with
                  | [] => false
                  | _ :: s' => like ("%"%char :: p) s'
                  end.
Proof.
  intros p s. destruct s; reflexivity.
Qed.

Lemma like_percent_only : forall s, like ["%"%char] s = true.
Proof.
  induction s as [ | c s IH ]; rewrite like_percent; [ reflexivity | ].
  rewrite IH. apply orb_true_r.
Qed.

(** The equation of [like] at a leading character that is no wildcard. *)
Lemma like_letter :
  forall c p s,
    (c =? "%")%char = false -> (c =? "_")%char = false ->
    like (c :: p) s
    = match s with
      | [] => false
      | d :: s' => (lower_char c =? lower_char d)%char && like p s'
      end.
Proof.
  intros c p s Hp Hu. destruct s as [ | d s ]; cbn [like]; rewrite Hp;
    [ reflexivity | ].
  rewrite Hu. reflexivity.
Qed.

(** A needle without wildcards, followed by [%], matches the strings that
    begin with it, letter case apart. *)
Lemma like_prefix :
  forall needle s,
    no_wildcard needle = true ->
    like (list_ascii_of_string needle ++ ["%"%char])%list
         (list_ascii_of_string s)
    = prefix (lower needle) (lower s).
Proof.
  induction needle as [ | c needle IH ]; intros s Hw.
  - transitivity true; [ apply like_percent_only | destruct s; reflexivity ].
  - unfold no_wildcard in Hw. cbn [list_ascii_of_string forallb] in Hw.
    apply andb_prop in Hw. destruct Hw as [Hc Hw].
    apply negb_true_iff, orb_false_iff in Hc. destruct Hc as [Hp Hu].
    cbn [list_ascii_of_string app lower].
    rewrite (like_letter _ _ _ Hp Hu).
    destruct s as [ | d s ]; cbn [list_ascii_of_string lower prefix];
      [ reflexivity | ].
    rewrite (IH s Hw).
    destruct (Ascii.ascii_dec (lower_char c) (lower_char d)) as [ E | N ].
    + rewrite E, Ascii.eqb_refl. reflexivity.
    + destruct (Ascii.eqb_spec (lower_char c) (lower_char d));
        [ contradiction | reflexivity ].
Qed.

(** X8.  For a needle that contains neither [%] nor [_], the filter
    [column.ilike('%' + needle + '%')] holds of a string exactly when the
    needle occurs in it as a substring, letter case apart. *)
Theorem ilike_substring :
  forall needle s,
    no_wildcard needle = true ->
    ilike (PStr s) needle = substring_of (lower needle) (lower s).
Proof.
  intros needle s Hw. unfold ilike.
  change ("%" ++ needle ++ "%")%string
    with (String "%"%char (needle ++ "%")%string).
  cbn [list_ascii_of_string]. rewrite list_ascii_of_string_app.
  change (list_ascii_of_string "%") with ["%"%char].
  induction s as [ | d s IH ].
  - rewrite like_percent. rewrite (like_prefix needle "" Hw).
    simpl. reflexivity.
  - rewrite like_percent. rewrite (like_prefix needle (String d s) Hw).
    cbn [list_ascii_of_string]. rewrite IH.
    cbn [lower substring_of]. reflexivity.
Qed.

Lemma ilike_substring_witness :
  ilike (PStr "Python Crash Course") "python"
  = substring_of (lower "python") (lower "Python Crash Course") /\
  substring_of (lower "python") (lower "Python Crash Course") = true.
Proof.
  split; [ apply ilike_substring; reflexivity | reflexivity ].
Defined.

(** ** More on the list handler *)
















(** ** Start-up, delete, and update followed by get *)


Lemma filter_above :
  forall (db : table) id,
    Forall (fun r => id < Book.id r) db ->
    filter (fun r => negb (Book.id r =? id)) db = db.
Proof.
  intros db id H. induction H as [ | r db Hr _ IH ]; simpl; [ reflexivity | ].
  rewrite IH. destruct (Z.eqb_spec (Book.id r) id); [ lia | reflexivity ].
Qed.

(** X13.  On a table whose ids ascend, deleting a stored book takes away
    exactly that row: the table before is the deleted book together with
    the table after, so the number of books goes down by one. *)
Theorem delete_book_removes_one :
  forall db id book,
    ids_ascending db ->
    query_get db id = Some book ->
    Permutation db (book :: snd (delete_book db id)) /\
    Z.of_nat (List.length (snd (delete_book db id)))
    = Z.of_nat (List.length db) - 1.
Proof.
  intros db id book [_ Hasc] Hget.
  assert (Hperm : Permutation db (book :: snd (delete_book db id))).
  { unfold delete_book. rewrite Hget. cbn [snd].
    pose proof (query_get_id _ _ _ Hget) as Hid.
    pose proof (query_get_In _ _ _ Hget) as Hin. clear Hget. subst id.
    induction Hasc as [ | r db Hdb IH Hr ]; [ contradiction | ].
    cbn [filter].
    destruct (Z.eqb_spec (Book.id r) (Book.id book)) as [ E | N ]; cbn [negb].
    - destruct Hin as [ -> | Hin ].
      + rewrite filter_above; [ apply Permutation_refl | exact Hr ].
      + pose proof (proj1 (Forall_forall _ _) Hr book Hin) as L.
        cbv beta in L. lia.
    - destruct Hin as [ -> | Hin ]; [ contradiction | ].
      apply perm_trans
        with (r :: book :: filter (fun r0 => negb (Book.id r0 =? Book.id book)) db).
      + apply perm_skip. apply IH. exact Hin.
      + apply perm_swap. }
  split; [ exact Hperm | ].
  apply Permutation_length in Hperm. cbn [List.length] in Hperm. lia.
Qed.

Lemma delete_book_removes_one_witness :
  let db := seeded (mkDatetime 2024 1 1 0 0 0 0) in
  map Book.id (snd (delete_book db 2)) = [1; 3] /\
  Z.of_nat (List.length (snd (delete_book db 2))) = 3 - 1.
Proof.
  intros db. split; [ reflexivity | ].
  assert (Hids : ids_ascending db).
  { split; repeat (constructor; try (cbn; lia)). }
  exact (proj2 (delete_book_removes_one db 2 _ Hids eq_refl)).
Defined.

Lemma assigned_id :
  forall data book b1 b2 b3 b4,
    assign data "title" set_title book = inr b1 ->
    assign data "author" set_author b1 = inr b2 ->
    assign data "year" set_year b2 = inr b3 ->
    assign data "isbn" set_isbn b3 = inr b4 ->
    Book.id b4 = Book.id book.
Proof.
  intros data book b1 b2 b3 b4 E1 E2 E3 E4.
  apply assign_cases in E1, E2, E3, E4.
  destruct E1 as [ (_ & ? & _ & ->) | (_ & ->) ],
           E2 as [ (_ & ? & _ & ->) | (_ & ->) ],
           E3 as [ (_ & ? & _ & ->) | (_ & ->) ],
           E4 as [ (_ & ? & _ & ->) | (_ & ->) ]; reflexivity.
Qed.

(** X14.  After an update that answered 200, a get with the same id answers
    200 with the representation that the update returned. *)
Theorem update_book_then_get :
  forall db id data body,
    fst (update_book db id data) = Response 200 body ->
    exists book,
      body = book_body "Book updated successfully" book /\
      get_book (snd (update_book db id data)) id
      = Response 200 (PDict [("success", PBool true);
                             ("book", Book.to_dict book)]).
Proof.
  intros db id data body H.
  destruct (query_get db id) as [ book | ] eqn:Hget.
  - destruct (update_book_cases db id data book Hget)
      as [ [_ Hno] | (b1 & b2 & b3 & b4 & E1 & E2 & E3 & E4 & Hup) ].
    + exfalso. apply (Hno body). exact H.
    + rewrite Hup in *. cbn [fst snd] in *. injection H as <-.
      exists b4. split; [ reflexivity | ].
      unfold get_book.
      rewrite (query_get_replace_row db id book b4 Hget); [ reflexivity | ].
      rewrite (assigned_id _ _ _ _ _ _ E1 E2 E3 E4).
      apply (query_get_id db). exact Hget.
  - unfold update_book in H. rewrite Hget in H. discriminate.
Qed.

Lemma update_book_then_get_witness :
  let db := seeded (mkDatetime 2024 1 1 0 0 0 0) in
  let data := PDict [("year", PNone); ("title", PStr "Clean Code, 2nd")] in
  exists book,
    fst (update_book db 3 data)
    = Response 200 (book_body "Book updated successfully" book) /\
    get_book (snd (update_book db 3 data)) 3
    = Response 200 (PDict [("success", PBool true);
                           ("book", Book.to_dict book)]).
Proof.
  intros db data.
  destruct (update_book_then_get db 3 data _ eq_refl) as (book & Hb & Hg).
  exists book. split; [ | exact Hg ].
  rewrite <- Hb. reflexivity.
Defined.

(** ** Bodies that are not JSON objects *)

Lemma replace_row_same :
  forall db book,
    ids_ascending db -> In book db -> replace_row db book = db.
Proof.
  intros db book [_ Hasc] Hin.
  induction Hasc as [ | r db Hdb IH Hr ]; [ contradiction | ].
  change (replace_row (r :: db) book)
    with ((if Book.id r =? Book.id book then book else r)
            :: replace_row db book).
  destruct (Z.eqb_spec (Book.id r) (Book.id book)) as [ E | N ].
  - destruct Hin as [ -> | Hin ].
    + rewrite replace_row_fresh; [ reflexivity | exact Hr ].
    + pose proof (proj1 (Forall_forall _ _) Hr book Hin) as L.
      cbv beta in L. lia.
  - destruct Hin as [ -> | Hin ]; [ contradiction | ].
    rewrite (IH Hin). reflexivity.
Qed.

Lemma assign_not_dict :
  forall data k set b b',
    (forall kv, data <> PDict kv) ->
    assign data k set b = inr b' -> b' = b.
Proof.
  intros data k set b b' Hnd H. apply assign_cases in H.
  destruct H as [ (_ & v & Hv & _) | (_ & ->) ]; [ | reflexivity ].
  destruct data; try discriminate. exfalso. eapply Hnd. reflexivity.
Qed.

(** X15.  A request body that is not a JSON object changes nothing: a
    create with such a body never answers 201 and leaves the table as it
    was, and so does an update on a table whose ids ascend, whatever it
    answers. *)
Theorem non_object_body_changes_nothing :
  forall db now id data,
    (forall kv, data <> PDict kv) ->
    status_of (fst (create_book db now data)) <> 201 /\
    snd (create_book db now data) = db /\
    (ids_ascending db -> snd (update_book db id data) = db).
Proof.
  intros db now id data Hnd.
  assert (Hc : forall body, fst (create_book db now data) <> Response 201 body).
  { intros body Hb.
    destruct (create_book db now data) as [out db'] eqn:E.
    cbn [fst] in Hb. subst out.
    destruct (create_book_success_inv _ _ _ _ _ E) as (kv & _ & _ & Hd & _).
    apply (Hnd kv). exact Hd. }
  split; [ | split ].
  - destruct (fst (create_book db now data)) as [ st body | e ] eqn:F;
      [ | discriminate ].
    cbn [status_of]. intros ->. apply (Hc body). reflexivity.
  - destruct (create_book_unchanged db now data) as [ [body Hb] | Hsame ];
      [ exfalso; apply (Hc body); exact Hb | exact Hsame ].
  - intros Hids.
    destruct (query_get db id) as [ book | ] eqn:Hget.
    + destruct (update_book_cases db id data book Hget)
        as [ [Hdb _] | (b1 & b2 & b3 & b4 & E1 & E2 & E3 & E4 & Hup) ];
        [ exact Hdb | ].
      rewrite Hup. cbn [snd].
      apply (assign_not_dict _ _ _ _ _ Hnd) in E1. subst b1.
      apply (assign_not_dict _ _ _ _ _ Hnd) in E2. subst b2.
      apply (assign_not_dict _ _ _ _ _ Hnd) in E3. subst b3.
      apply (assign_not_dict _ _ _ _ _ Hnd) in E4. subst b4.
      apply replace_row_same; [ exact Hids | ].
      apply (query_get_In db id). exact Hget.
    + unfold update_book. rewrite Hget. reflexivity.
Qed.

Lemma non_object_body_changes_nothing_witness :
  let db := seeded (mkDatetime 2024 1 1 0 0 0 0) in
  let data := PList [PStr "author"; PInt 7] in
  status_of (fst (create_book db (mkDatetime 2024 5 6 7 8 9 0) data)) <> 201 /\
  snd (create_book db (mkDatetime 2024 5 6 7 8 9 0) data) = db /\
  snd (update_book db 1 data) = db.
Proof.
  intros db data.
  destruct (non_object_body_changes_nothing db
              (mkDatetime 2024 5 6 7 8 9 0) 1 data) as (H1 & H2 & H3).
  - intros kv. discriminate.
  - split; [ exact H1 | ]. split; [ exact H2 | ].
    apply H3. split; repeat (constructor; try (cbn; lia)).
Defined.
